(** * ACQ-Reviewer: the report service of [backend/app.py]

    A shallow embedding of [run_tool], [analyze_code], [analyze] and
    [health], with the temporary file, the two subprocess calls and the
    exceptions of the Python code made explicit, followed by the properties
    of the report and of the two HTTP handlers. *)

From Stdlib Require Import ZArith NArith String Ascii.
From Stdlib Require Import DecimalString HexadecimalString.
From stdpp Require Import gmap list fin_maps.

Local Open Scope Z_scope.

(** ** Python values *)

(** A Python [str] is a sequence of Unicode code points; lone surrogates
    (U+D800..U+DFFF) are legal in a [str] and reach the service through
    JSON escapes. [bytes] is a sequence of octets. *)
Abbreviation char := N (only parsing).
Abbreviation str := (list N) (only parsing).
Abbreviation bytes := (list N) (only parsing).

(** The code points of an ASCII literal of the source. *)
Definition py (s : string) : str := map N_of_ascii (list_ascii_of_string s).

Module Str.

(** [str.isspace] on one character, the test [str.strip()] uses when it
    is called without argument. *)
Definition isspace (c : char) : bool :=
  ((0x09 <=? c) && (c <=? 0x0D) || (0x1C <=? c) && (c <=? 0x20)
   || (c =? 0x85) || (c =? 0xA0) || (c =? 0x1680)
   || (0x2000 <=? c) && (c <=? 0x200A)
   || (c =? 0x2028) || (c =? 0x2029) || (c =? 0x202F)
   || (c =? 0x205F) || (c =? 0x3000))%N.

Fixpoint lstrip (s : str) : str :=
  match s with
  | c :: s' => if isspace c then lstrip s' else s
  | [] => []
  end.

Definition rstrip (s : str) : str := rev (lstrip (rev s)).

(** [s.strip()] *)
Definition strip (s : str) : str := rstrip (lstrip s).

Fixpoint startswith (s sub : str) : bool :=
  match sub, s with
  | [], _ => true
  | _ :: _, [] => false
  | a :: sub', c :: s' => (a =? c)%N && startswith s' sub'
  end.

(** Scan for non-overlapping occurrences of a non-empty [sub]; [skip] is
    the number of characters still covered by the last match. *)
Fixpoint count_scan (sub s : str) (skip : nat) : Z :=
  match s with
  | [] => 0
  | _ :: s' =>
      match skip with
      | S k => count_scan sub s' k
      | O => if startswith s sub
             then 1 + count_scan sub s' (length sub - 1)
             else count_scan sub s' 0
      end
  end.

(** [s.count(sub)] *)
Definition count (s sub : str) : Z :=
  match sub with
  | [] => Z.of_nat (length s) + 1
  | _ => count_scan sub s 0
  end.

(** UTF-8 of one code point; a surrogate has none. *)
Definition encode_char (c : char) : option bytes :=
  (if c <? 0x80 then Some [c]
   else if c <? 0x800 then
     Some [N.lor 0xC0 (N.shiftr c 6); N.lor 0x80 (N.land c 0x3F)]
   else if (0xD800 <=? c) && (c <=? 0xDFFF) then None
   else if c <? 0x10000 then
     Some [N.lor 0xE0 (N.shiftr c 12);
           N.lor 0x80 (N.land (N.shiftr c 6) 0x3F);
           N.lor 0x80 (N.land c 0x3F)]
   else
     Some [N.lor 0xF0 (N.shiftr c 18);
           N.lor 0x80 (N.land (N.shiftr c 12) 0x3F);
           N.lor 0x80 (N.land (N.shiftr c 6) 0x3F);
           N.lor 0x80 (N.land c 0x3F)])%N.

(** [s.encode()]: UTF-8, strict; [None] stands for [UnicodeEncodeError]. *)
Fixpoint encode (s : str) : option bytes :=
  match s with
  | [] => Some []
  | c :: s' =>
      match encode_char c, encode s' with
      | Some b, Some bs => Some (b ++ bs)
      | _, _ => None
      end
  end.

(** The decimal and the lower-case hexadecimal digits of a number. *)
Definition decimal (n : N) : str :=
  map N_of_ascii
    (list_ascii_of_string (DecimalString.NilZero.string_of_uint (N.to_uint n))).

Definition hexadecimal (n : N) : str :=
  map N_of_ascii
    (list_ascii_of_string
       (HexadecimalString.NilZero.string_of_uint (N.to_hex_uint n))).

(** The number of surrogates [s] starts with. *)
Fixpoint surrogates_ahead (s : str) : N :=
  match s with
  | c :: s' =>
      if ((0xD800 <=? c) && (c <=? 0xDFFF))%N then 1 + surrogates_ahead s'
      else 0
  | [] => 0
  end%N.

(** [str(e)] for the [UnicodeEncodeError] of [s.encode()], [pos] being the
    index of the head of [s]: the error names the first run of surrogates,
    by its character when the run is one character long and by its first
    and last index otherwise. *)
Fixpoint encode_error (s : str) (pos : N) : str :=
  match s with
  | [] => []
  | c :: s' =>
      if ((0xD800 <=? c) && (c <=? 0xDFFF))%N then
        if (surrogates_ahead s' =? 0)%N then
          map N_of_ascii
            (list_ascii_of_string "'utf-8' codec can't encode character '\u")
          ++ hexadecimal c
          ++ map N_of_ascii (list_ascii_of_string "' in position ")
          ++ decimal pos
          ++ map N_of_ascii (list_ascii_of_string ": surrogates not allowed")
        else
          map N_of_ascii
            (list_ascii_of_string
               "'utf-8' codec can't encode characters in position ")
          ++ decimal pos
          ++ map N_of_ascii (list_ascii_of_string "-")
          ++ decimal (pos + surrogates_ahead s')
          ++ map N_of_ascii (list_ascii_of_string ": surrogates not allowed")
      else encode_error s' (pos + 1)
  end.

End Str.

Definition colon : str := py ":".

(** ** Exceptions *)

(** The exception classes that occur; [KeyboardInterrupt] and [SystemExit]
    derive from [BaseException] only, so [except Exception] lets them
    through. *)
Inductive exn_class :=
  | UnicodeEncodeError | AttributeError | OSError | FileExistsError
  | FileNotFoundError | SubprocessError | KeyboardInterrupt | SystemExit.

Definition is_Exception (c : exn_class) : bool :=
  match c with
  | KeyboardInterrupt | SystemExit => false
  | _ => true
  end.

(** An exception value: its class and [str(e)]. *)
Record exn := { exn_cls : exn_class; exn_str : str }.

Inductive result (A : Type) :=
  | Ok (a : A)
  | Raise (e : exn).
Arguments Ok {A} a.
Arguments Raise {A} e.

(** ** The world outside the process *)

(** What [subprocess.run(command, capture_output=True, text=True)] does:
    the child runs to its end and its two streams are captured, or the call
    raises. The exit status is not looked at ([check] is not set). *)
Record CompletedProcess := { stdout : str; stderr : str }.

Inductive outcome :=
  | Completed (p : CompletedProcess)
  | Raised (e : exn).

(** What the code cannot decide itself: the temporary directory, the random
    names [tempfile] draws (it tries them in order, at most [TMP_MAX] of
    them) and the behaviour of the programs found on the search path. *)
Record Env := {
  gettempdir : str;
  random_names : list str;
  subprocess_run : list str -> outcome
}.

Inductive event :=
  | EvCreate (path : str)
  | EvWrite (path : str) (data : bytes)
  | EvRun (command : list str)
  | EvUnlink (path : str).

(** The files of the temporary directory and the effects so far, oldest
    first. *)
Record world := { fs : gmap (list N) (list N); trace : list event }.

Definition log (ev : event) (w : world) : world :=
  {| fs := fs w; trace := trace w ++ [ev] |}.

(** ** Computations that change the world and may raise *)

Definition M (A : Type) : Type := world -> result A * world.

Definition ret {A} (a : A) : M A := fun w => (Ok a, w).

Definition raise {A} (e : exn) : M A := fun w => (Raise e, w).

Definition bind {A B} (m : M A) (k : A -> M B) : M B :=
  fun w =>
    match m w with
    | (Ok a, w') => k a w'
    | (Raise e, w') => (Raise e, w')
    end.

(** [try: body except Exception as e: handler e] *)
Definition try_except_Exception {A} (body : M A) (handler : exn -> M A) : M A :=
  fun w =>
    match body w with
    | (Ok a, w') => (Ok a, w')
    | (Raise e, w') =>
        if is_Exception (exn_cls e) then handler e w' else (Raise e, w')
    end.

Declare Scope py_scope.
Delimit Scope py_scope with py.
Notation "x <- m ;; k" := (bind m (fun x => k))
  (at level 100, m at next level, right associativity) : py_scope.
Notation "m ;;; k" := (bind m (fun _ => k))
  (at level 100, right associativity) : py_scope.

Local Open Scope py_scope.

(** ** The report *)

Record Summary := { quality_score : Z; total_issues : Z; verdict : str }.
Record Details := { pylint : str; flake8 : str }.
Record Report := { summary : Summary; details : Details }.

(** ** JSON values and responses *)

#[local] Set Warnings "-register-all".

(** [request.json]: the parsed body (a body that is not JSON is refused by
    the framework before the handler goes on). A JSON object becomes a
    [dict] (keys unique, looked up by the first binding here); JSON reals
    are left out, they behave like [JInt] in [analyze]. *)
Inductive json :=
  | JNull
  | JBool (b : bool)
  | JInt (n : Z)
  | JStr (s : str)
  | JList (l : list json)
  | JDict (d : list (str * json)).

Record response := { status : Z; body : json }.

(** [jsonify(value)]: a response with the default status. *)
Definition jsonify (value : json) : response :=
  {| status := 200; body := value |}.

(** [return resp, code] from a view function. *)
Definition with_status (resp : response) (code : Z) : response :=
  {| status := code; body := body resp |}.

(** The [dict] that [analyze_code] returns, as the JSON value [jsonify]
    sends. *)
Definition report_json (r : Report) : json :=
  JDict [(py "summary",
          JDict [(py "quality_score", JInt (quality_score (summary r)));
                 (py "total_issues", JInt (total_issues (summary r)));
                 (py "verdict", JStr (verdict (summary r)))]);
         (py "details",
          JDict [(py "pylint", JStr (pylint (details r)));
                 (py "flake8", JStr (flake8 (details r)))])].

(** ** Library calls of the service *)

Section Service.

Variable E : Env.

(** The operating system is taken to carry out what it is asked on the
    files: creating the temporary file fails only for want of a free name,
    writing and closing it succeed, and unlinking fails only when the path
    is gone. The errors it could raise besides ([OSError] for a full disk,
    a missing directory, a refused permission) are not part of this
    development: where a statement says that a run returns, it says so
    of an operating system that does carry these operations out. *)

(** [os.path.join(dir, name)] for a [name] that is relative. *)
Definition path_join (dir name : str) : str :=
  match last dir with
  | None => name
  | Some c => if (c =? 47)%N then dir ++ name else dir ++ py "/" ++ name
  end.

(** The loop of [tempfile] over candidate names: the first name that
    does not exist yet is created (with [O_EXCL]). *)
Fixpoint mkstemp_inner (files : gmap (list N) (list N)) (dir pre suf : str)
    (names : list str) : option str :=
  match names with
  | [] => None
  | name :: names' =>
      let file := path_join dir (pre ++ name ++ suf) in
      match files !! file with
      | Some _ => mkstemp_inner files dir pre suf names'
      | None => Some file
      end
  end.

(** [tempfile.NamedTemporaryFile(delete=False, suffix=suffix)]: the file
    exists, empty, when the call returns; the value is [temp.name]. *)
Definition NamedTemporaryFile (suffix : str) : M str :=
  fun w =>
    match mkstemp_inner (fs w) (gettempdir E) (py "tmp") suffix
            (random_names E) with
    | Some name =>
        (Ok name, {| fs := <[name := []]> (fs w);
                     trace := trace w ++ [EvCreate name] |})
    | None =>
        (Raise {| exn_cls := FileExistsError;
                  exn_str :=
                    py "[Errno 17] No usable temporary file name found" |}, w)
    end.

(** [code.encode()] *)
Definition str_encode (s : str) : M bytes :=
  match Str.encode s with
  | Some b => ret b
  | None =>
      raise {| exn_cls := UnicodeEncodeError;
               exn_str := Str.encode_error s 0 |}
  end.

(** [temp.write(data)], through the open descriptor of [name]. *)
Definition temp_write (name : str) (data : bytes) : M unit :=
  fun w =>
    (Ok tt, {| fs := alter (fun old => old ++ data) name (fs w);
               trace := trace w ++ [EvWrite name data] |}).

(** [os.unlink(path)] *)
Definition os_unlink (path : str) : M unit :=
  fun w =>
    match fs w !! path with
    | Some _ =>
        (Ok tt, {| fs := delete path (fs w);
                   trace := trace w ++ [EvUnlink path] |})
    | None =>
        (Raise {| exn_cls := FileNotFoundError;
                  exn_str := py "[Errno 2] No such file or directory: '"
                             ++ path ++ py "'" |}, w)
    end.

(** [subprocess.run(command, capture_output=True, text=True)] *)
Definition subprocess_run_call (command : list str) : M CompletedProcess :=
  fun w =>
    match subprocess_run E command with
    | Completed p => (Ok p, log (EvRun command) w)
    | Raised e => (Raise e, log (EvRun command) w)
    end.

(** ** [run_tool] *)

Definition run_tool (command : list str) (file_path : str) : M str :=
  try_except_Exception
    (result <- subprocess_run_call command;;
     ret (stdout result ++ stderr result))
    (fun e => ret (exn_str e)).

(** ** [analyze_code] *)

Definition pylint_command (file_path : str) : list str :=
  [py "pylint"; file_path; py "--disable=all";
   py "--enable=unused-import,missing-docstring"].

Definition flake8_command (file_path : str) : list str :=
  [py "flake8"; file_path].

Definition analyze_code (code : str) : M Report :=
  file_path <- (temp <- NamedTemporaryFile (py ".py");;
                data <- str_encode code;;
                temp_write temp data;;;
                ret temp);;
  pylint_out <- run_tool (pylint_command file_path) file_path;;
  flake8_out <- run_tool (flake8_command file_path) file_path;;
  let issues := Str.count pylint_out colon + Str.count flake8_out colon in
  let score := Z.max (100 - issues * 10) 40 in
  let verdict :=
    if score >=? 80 then py "Good Quality" else py "Needs Improvement" in
  os_unlink file_path;;;
  ret {| summary := {| quality_score := score;
                       total_issues := issues;
                       verdict := verdict |};
         details := {| pylint := Str.strip pylint_out;
                       flake8 := Str.strip flake8_out |} |}.

(** ** The HTTP handlers *)

Fixpoint dict_lookup (d : list (str * json)) (key : str) : option json :=
  match d with
  | [] => None
  | (k, v) :: d' => if bool_decide (k = key) then Some v else dict_lookup d' key
  end.

(** [type(value).__name__] *)
Definition type_name (value : json) : string :=
  match value with
  | JNull => "NoneType"
  | JBool _ => "bool"
  | JInt _ => "int"
  | JStr _ => "str"
  | JList _ => "list"
  | JDict _ => "dict"
  end.

(** The [AttributeError] of [value.name] when the type has no such
    attribute. *)
Definition no_attribute (value : json) (name : string) : exn :=
  {| exn_cls := AttributeError;
     exn_str := py "'" ++ py (type_name value)
                ++ py "' object has no attribute '" ++ py name ++ py "'" |}.

(** [data.get(key, default)]; only a [dict] has [get]. *)
Definition py_get (data : json) (key : str) (default : json) : M json :=
  match data with
  | JDict d =>
      ret (match dict_lookup d key with Some v => v | None => default end)
  | _ => raise (no_attribute data "get")
  end.

(** [value.strip()]; only a [str] has [strip]. *)
Definition py_strip (value : json) : M str :=
  match value with
  | JStr s => ret (Str.strip s)
  | _ => raise (no_attribute value "strip")
  end.

(** The argument [analyze_code] receives: it is a [str] whenever
    [py_strip] returned. *)
Definition as_str (value : json) : str :=
  match value with
  | JStr s => s
  | _ => []
  end.

(** [POST /analyze] *)
Definition analyze (request_json : json) : M response :=
  let data := request_json in
  code <- py_get data (py "code") (JStr []);;
  stripped <- py_strip code;;
  if bool_decide (stripped = [])
  then ret (with_status
              (jsonify (JDict [(py "error", JStr (py "No code provided"))]))
              400)
  else
    report <- analyze_code (as_str code);;
    ret (jsonify (report_json report)).

(** [GET /health] *)
Definition health : M response :=
  ret (jsonify (JDict [(py "status", JStr (py "running"))])).

End Service.

(** ** Sample environments *)

(** Both tools run and find nothing. *)

Definition quiet_tool (command : list str) : outcome :=
  Completed {| stdout := []; stderr := [] |}.

(** A linter that reports three diagnostics for the file it is given; the
    style checker finds nothing. *)
Definition noisy_tool (command : list str) : outcome :=
  match command with
  | tool :: file :: _ =>
      if bool_decide (tool = py "pylint") then
        Completed {| stdout := file ++ py ":1:0: C0114 (missing-module-docstring) ";
                     stderr := [] |}
      else Completed {| stdout := []; stderr := [] |}
  | _ => Completed {| stdout := []; stderr := [] |}
  end.

(** A machine without the two tools: [subprocess.run] raises
    [FileNotFoundError]. *)
Definition missing_tool (command : list str) : outcome :=
  Raised {| exn_cls := FileNotFoundError;
            exn_str := py "[Errno 2] No such file or directory: '" ++
                       match command with tool :: _ => tool | [] => [] end ++
                       py "'" |}.

(** The user interrupts the first tool. *)
Definition interrupted_tool (command : list str) : outcome :=
  Raised {| exn_cls := KeyboardInterrupt; exn_str := [] |}.

Definition env_with (run : list str -> outcome) : Env :=
  {| gettempdir := py "/tmp";
     random_names := [py "abcd1234"; py "efgh5678"];
     subprocess_run := run |}.

Definition empty_world : world := {| fs := ∅; trace := [] |}.

Definition sample_code : str := py "import os".
Definition sample_file : str := py "/tmp/tmpabcd1234.py".

(** ** Vocabulary of the statements *)

(** The number of positions of [s] that hold [c]. *)
Fixpoint occurrences (c : char) (s : str) : Z :=
  match s with
  | [] => 0
  | x :: s' => (if (c =? x)%N then 1 else 0) + occurrences c s'
  end.

(** The name [NamedTemporaryFile] settles on in world [w]. *)
Definition temp_name (E : Env) (w : world) : option str :=
  mkstemp_inner (fs w) (gettempdir E) (py "tmp") (py ".py") (random_names E).

(** What [run_tool] hands back for an outcome of the subprocess call. *)
Definition tool_text (o : outcome) : result str :=
  match o with
  | Completed p => Ok (stdout p ++ stderr p)
  | Raised e => if is_Exception (exn_cls e) then Ok (exn_str e) else Raise e
  end.

(** Lines 36 to 53 of [analyze_code], as a function of the two outputs. *)
Definition report_of (pylint_out flake8_out : str) : Report :=
  let issues := Str.count pylint_out colon + Str.count flake8_out colon in
  let score := Z.max (100 - issues * 10) 40 in
  {| summary := {| quality_score := score;
                   total_issues := issues;
                   verdict := if score >=? 80 then py "Good Quality"
                              else py "Needs Improvement" |};
     details := {| pylint := Str.strip pylint_out;
                   flake8 := Str.strip flake8_out |} |}.

(** The world after the [with] block: the file holds the encoded code. *)
Definition written (file : str) (data : bytes) (w : world) : world :=
  {| fs := alter (fun old => old ++ data) file (<[file := []]> (fs w));
     trace := (trace w ++ [EvCreate file]) ++ [EvWrite file data] |}.

(** The world [analyze_code] leaves behind when it returns. *)
Definition cleaned (file : str) (data : bytes) (w : world) : world :=
  {| fs := delete file (fs (written file data w));
     trace := trace w ++ [EvCreate file; EvWrite file data;
                          EvRun (pylint_command file);
                          EvRun (flake8_command file);
                          EvUnlink file] |}.

(** A run with three diagnostics from the linter. *)
Definition noisy_report : Report :=
  report_of (sample_file ++ py ":1:0: C0114 (missing-module-docstring) ") [].

(** Another machine: other temporary directory, other random names. *)
Definition other_env : Env :=
  {| gettempdir := py "/var/tmp";
     random_names := [py "zzzz0000"];
     subprocess_run := quiet_tool |}.

(** The report of a run without any diagnostic. *)
Definition clean_report : Report :=
  {| summary := {| quality_score := 100; total_issues := 0;
                   verdict := py "Good Quality" |};
     details := {| pylint := []; flake8 := [] |} |}.

(** The fixed answer to a request without code. *)
Definition no_code_response : response :=
  {| status := 400;
     body := JDict [(py "error", JStr (py "No code provided"))] |}.

(** ** The variant of [demo/app.py] *)

(** The truth value of a [str] in a condition: it is true unless empty. *)
Definition truthy (s : str) : bool :=
  match s with
  | [] => false
  | _ :: _ => true
  end.

Module Demo.

(** The [dict] that [summarize] returns. *)
Record Summary := {
  issues : Z;
  style_issues : Z;
  quality_score : Z;
  verdict : str
}.

Definition summarize (pylint_out flake8_out : str) : Summary :=
  {| issues := Str.count pylint_out colon;
     style_issues := Str.count flake8_out colon;
     quality_score := Z.max (100 - (Str.count pylint_out colon * 5)) 40;
     verdict := if truthy pylint_out then py "Needs Improvement"
                else py "Good Quality" |}.

End Demo.

(** ** More vocabulary *)

(** The code points U+D800..U+DFFF, which UTF-8 cannot carry. *)
Definition is_surrogate (c : char) : bool := ((0xD800 <=? c) && (c <=? 0xDFFF))%N.

(** The effects of a complete run of [analyze_code], in order. *)
Definition full_run (file : str) (data : bytes) : list event :=
  [EvCreate file; EvWrite file data; EvRun (pylint_command file);
   EvRun (flake8_command file); EvUnlink file].

(** A world in which the first temporary name is already in use. *)
Definition crowded_world : world :=
  {| fs := {[ sample_file := py "print(1)" ]}; trace := [] |}.

(** * Properties *)

(** ** Counting and trimming *)

Lemma startswith_nil (s : str) : Str.startswith s [] = true.
Proof. by destruct s. Qed.

Lemma count_single (c : char) (s : str) : Str.count s [c] = occurrences c s.
Proof.
  unfold Str.count.
  induction s as [|x s IH]; [done|].
  cbn [Str.count_scan occurrences Str.startswith length].
  rewrite startswith_nil, andb_true_r.
  replace (1 - 1)%nat with 0%nat by done.
  destruct (c =? x)%N; rewrite IH; lia.
Qed.

Lemma occurrences_nonneg (c : char) (s : str) : 0 <= occurrences c s.
Proof. induction s as [|x s IH]; cbn; [lia | destruct (c =? x)%N; lia]. Qed.

Lemma occurrences_app (c : char) (s t : str) :
  occurrences c (s ++ t) = occurrences c s + occurrences c t.
Proof. induction s as [|x s IH]; cbn; [lia | rewrite IH; lia]. Qed.

Lemma occurrences_rev (c : char) (s : str) :
  occurrences c (rev s) = occurrences c s.
Proof.
  induction s as [|x s IH]; [done|].
  cbn. rewrite occurrences_app, IH. cbn. lia.
Qed.

Lemma occurrences_lstrip (c : char) (s : str) :
  Str.isspace c = false -> occurrences c (Str.lstrip s) = occurrences c s.
Proof.
  intros Hc. induction s as [|x s IH]; [done|].
  cbn [Str.lstrip]. destruct (Str.isspace x) eqn:Hx; [|done].
  rewrite IH. cbn. destruct (N.eqb_spec c x) as [->|_]; [congruence | lia].
Qed.

Lemma occurrences_strip (c : char) (s : str) :
  Str.isspace c = false -> occurrences c (Str.strip s) = occurrences c s.
Proof.
  intros Hc. unfold Str.strip, Str.rstrip.
  by rewrite occurrences_rev, occurrences_lstrip, occurrences_rev,
    occurrences_lstrip.
Qed.

Lemma count_colon_nonneg (s : str) : 0 <= Str.count s colon.
Proof.
  change colon with [58%N]. rewrite count_single. apply occurrences_nonneg.
Qed.

Lemma count_colon_strip (s : str) :
  Str.count (Str.strip s) colon = Str.count s colon.
Proof.
  change colon with [58%N]. rewrite !count_single. by apply occurrences_strip.
Qed.

(** [lstrip] removes a prefix made of whitespace and stops at the first
    character that is none. *)
Lemma lstrip_spec (s : str) :
  exists pre, s = pre ++ Str.lstrip s
    /\ Forall (fun c => Str.isspace c = true) pre
    /\ (forall c t, Str.lstrip s = c :: t -> Str.isspace c = false).
Proof.
  induction s as [|x s (pre & Heq & Hpre & Hhd)].
  - exists []. by repeat split.
  - cbn [Str.lstrip]. destruct (Str.isspace x) eqn:Hx.
    + exists (x :: pre). repeat split; [by rewrite Heq at 1 | by constructor | done].
    + exists []. repeat split; [done|]. intros c t [= <- _]. done.
Qed.

(** [strip] cuts a whitespace prefix and a whitespace suffix off, keeps what
    is between them as it is, and leaves no whitespace at either end. *)
Lemma strip_spec (s : str) :
  exists pre suf, s = pre ++ Str.strip s ++ suf
    /\ Forall (fun c => Str.isspace c = true) pre
    /\ Forall (fun c => Str.isspace c = true) suf
    /\ (forall c t, Str.strip s = c :: t -> Str.isspace c = false)
    /\ (forall t c, Str.strip s = t ++ [c] -> Str.isspace c = false).
Proof.
  destruct (lstrip_spec s) as (pre & Hs & Hpre & Hhd).
  destruct (lstrip_spec (rev (Str.lstrip s))) as (fus & Hr & Hfus & Hlast).
  assert (Hl : Str.lstrip s = Str.strip s ++ rev fus).
  { unfold Str.strip, Str.rstrip.
    rewrite <- rev_app_distr, <- Hr. by rewrite rev_involutive. }
  exists pre, (rev fus). repeat split.
  - by rewrite <- Hl.
  - done.
  - apply Forall_forall. intros c Hc. rewrite Forall_forall in Hfus.
    apply Hfus. apply list_elem_of_In, in_rev in Hc. by apply list_elem_of_In.
  - intros c t Ht. rewrite Ht in Hl. by apply (Hhd c (t ++ rev fus)).
  - intros t c Ht. unfold Str.strip, Str.rstrip in Ht.
    apply (f_equal (@rev N)) in Ht.
    rewrite rev_involutive, rev_app_distr in Ht. by apply (Hlast c (rev t)).
Qed.

(** ** The steps of [run_tool] and [analyze_code] *)

Lemma run_tool_eq (E : Env) (command : list str) (file_path : str) (w : world) :
  run_tool E command file_path w
  = (tool_text (subprocess_run E command), log (EvRun command) w).
Proof.
  unfold run_tool, try_except_Exception, bind, subprocess_run_call, tool_text, ret.
  destruct (subprocess_run E command) as [p|e]; [done|].
  by destruct (is_Exception (exn_cls e)).
Qed.

Lemma mkstemp_inner_fresh (files : gmap (list N) (list N)) (dir pre suf : str)
    (names : list str) (file : str) :
  mkstemp_inner files dir pre suf names = Some file -> files !! file = None.
Proof.
  induction names as [|name names IH]; [done|].
  cbn [mkstemp_inner].
  destruct (files !! path_join dir (pre ++ name ++ suf)) eqn:Hl; [done|].
  by intros [= <-].
Qed.

Lemma temp_name_fresh (E : Env) (w : world) (file : str) :
  temp_name E w = Some file -> fs w !! file = None.
Proof. apply mkstemp_inner_fresh. Qed.

(** [analyze_code], step by step. *)
Lemma analyze_code_eq (E : Env) (code : str) (w : world) :
  analyze_code E code w =
  match temp_name E w with
  | None =>
      (Raise {| exn_cls := FileExistsError;
                exn_str :=
                  py "[Errno 17] No usable temporary file name found" |}, w)
  | Some file =>
      match Str.encode code with
      | None =>
          (Raise {| exn_cls := UnicodeEncodeError;
                    exn_str := Str.encode_error code 0 |},
           {| fs := <[file := []]> (fs w);
              trace := trace w ++ [EvCreate file] |})
      | Some data =>
          let w2 := written file data w in
          let w3 := log (EvRun (pylint_command file)) w2 in
          let w4 := log (EvRun (flake8_command file)) w3 in
          match tool_text (subprocess_run E (pylint_command file)) with
          | Raise e => (Raise e, w3)
          | Ok pylint_out =>
              match tool_text (subprocess_run E (flake8_command file)) with
              | Raise e => (Raise e, w4)
              | Ok flake8_out =>
                  (Ok (report_of pylint_out flake8_out),
                   {| fs := delete file (fs w4);
                      trace := trace w4 ++ [EvUnlink file] |})
              end
          end
      end
  end.
Proof.
  unfold analyze_code, bind at 1 2. unfold NamedTemporaryFile. fold (temp_name E w).
  destruct (temp_name E w) as [file|]; [|done].
  unfold bind at 1, str_encode.
  destruct (Str.encode code) as [data|]; [|done].
  cbn [ret bind temp_write].
  unfold bind. rewrite !run_tool_eq. cbn [fs trace]. fold (written file data w).
  destruct (tool_text (subprocess_run E (pylint_command file))) as [po|e]; [|done].
  destruct (tool_text (subprocess_run E (flake8_command file))) as [fo|e]; [|done].
  unfold os_unlink. cbn [fs log written].
  by rewrite lookup_alter_eq, lookup_insert_eq.
Qed.

(** [analyze_code] returns exactly when a temporary name is free, the code
    can be encoded and neither [run_tool] lets an exception through. *)
Lemma analyze_code_Ok (E : Env) (code : str) (w w' : world) (r : Report) :
  analyze_code E code w = (Ok r, w') <->
  exists file data pylint_out flake8_out,
    temp_name E w = Some file
    /\ Str.encode code = Some data
    /\ tool_text (subprocess_run E (pylint_command file)) = Ok pylint_out
    /\ tool_text (subprocess_run E (flake8_command file)) = Ok flake8_out
    /\ r = report_of pylint_out flake8_out
    /\ w' = cleaned file data w.
Proof.
  rewrite analyze_code_eq. split.
  - destruct (temp_name E w) as [file|]; [|done].
    destruct (Str.encode code) as [data|]; [|done].
    cbn zeta.
    destruct (tool_text (subprocess_run E (pylint_command file)))
      as [po|] eqn:Hp; [|done].
    destruct (tool_text (subprocess_run E (flake8_command file)))
      as [fo|] eqn:Hf; [|done].
    intros [= <- <-]. exists file, data, po, fo.
    split_and!; try done. unfold cleaned, written, log. cbn. f_equal.
    by rewrite <- !app_assoc.
  - intros (file & data & po & fo & -> & -> & -> & -> & -> & ->).
    cbn zeta. unfold cleaned, written, log. cbn. do 2 f_equal.
    by rewrite <- !app_assoc.
Qed.

Lemma report_of_issues_nonneg (pylint_out flake8_out : str) :
  0 <= total_issues (summary (report_of pylint_out flake8_out)).
Proof.
  unfold report_of. cbn [summary total_issues].
  pose proof (count_colon_nonneg pylint_out).
  pose proof (count_colon_nonneg flake8_out). lia.
Qed.

Lemma Good_Quality_neq_Needs_Improvement :
  py "Good Quality" <> py "Needs Improvement".
Proof. discriminate. Qed.

(** The temporary file is there, and empty of everything else the run
    did, once [analyze_code] is done with it. *)
Lemma cleaned_fs (file : str) (data : bytes) (w : world) :
  fs w !! file = None -> fs (cleaned file data w) = fs w.
Proof.
  intros Hfresh. cbn. apply map_eq. intros k.
  destruct (decide (file = k)) as [<-|Hne].
  - by rewrite lookup_delete_eq.
  - by rewrite lookup_delete_ne, lookup_alter_ne, lookup_insert_ne.
Qed.

(** Closes [ev ∉ [ev1; ...; evn]] when [ev] differs from each by its
    constructor. *)
Ltac not_among :=
  repeat (apply not_elem_of_cons; split; [discriminate|]);
  apply not_elem_of_nil.

(** ** Codes that cannot be encoded *)

Lemma encode_char_None (c : char) :
  Str.encode_char c = None <-> is_surrogate c = true.
Proof.
  unfold Str.encode_char, is_surrogate. rewrite andb_true_iff, !N.leb_le.
  destruct (N.ltb_spec c 0x80); [split; [done | lia]|].
  destruct (N.ltb_spec c 0x800); [split; [done | lia]|].
  destruct (N.leb_spec 0xD800 c), (N.leb_spec c 0xDFFF); cbn [andb];
    try (by split); destruct (c <? 0x10000)%N; split; (done || lia).
Qed.

(** [encode] fails exactly on the strings that hold a surrogate. *)
Lemma encode_None_iff (s : str) :
  Str.encode s = None <-> Exists (fun c => is_surrogate c = true) s.
Proof.
  induction s as [|c s IH]; cbn [Str.encode].
  - split; [done | by intros ?%Exists_nil].
  - rewrite Exists_cons, <- IH, <- encode_char_None.
    destruct (Str.encode_char c), (Str.encode s); intuition congruence.
Qed.

(** ** The claims *)

(** C1: whenever [analyze_code] produces a report (for a non-empty code
    string or any other), its [quality_score] is
    [max (100 - 10 * total_issues) 40]; hence it lies between 40 and 100,
    equals [100 - 10 * total_issues] when that is at least 40 and equals 40
    otherwise. *)
Theorem quality_score_formula (E : Env) (code : str) (w w' : world) (r : Report) :
  analyze_code E code w = (Ok r, w') ->
  quality_score (summary r) = Z.max (100 - 10 * total_issues (summary r)) 40
  /\ 40 <= quality_score (summary r) <= 100
  /\ (40 <= 100 - 10 * total_issues (summary r) ->
      quality_score (summary r) = 100 - 10 * total_issues (summary r))
  /\ (100 - 10 * total_issues (summary r) < 40 ->
      quality_score (summary r) = 40).
Proof.
  intros (file & data & po & fo & _ & _ & _ & _ & -> & _)%analyze_code_Ok.
  pose proof (report_of_issues_nonneg po fo) as Hnn.
  unfold report_of in *. cbn [summary quality_score total_issues] in *. lia.
Qed.

Lemma quality_score_formula_witness :
  analyze_code (env_with noisy_tool) sample_code empty_world
  = (Ok noisy_report, cleaned sample_file sample_code empty_world)
  /\ total_issues (summary noisy_report) = 3
  /\ quality_score (summary noisy_report) = 70.
Proof.
  split; [vm_compute; reflexivity|]. split; [reflexivity|].
  destruct (quality_score_formula (env_with noisy_tool) sample_code empty_world
              (cleaned sample_file sample_code empty_world) noisy_report)
    as (Hscore & _); [vm_compute; reflexivity|].
  rewrite Hscore. reflexivity.
Defined.

(** C2: in every report of [analyze_code] the verdict is "Good Quality"
    exactly when [quality_score >= 80] and "Needs Improvement" exactly when
    it is below; there is no third verdict. *)
Theorem verdict_threshold (E : Env) (code : str) (w w' : world) (r : Report) :
  analyze_code E code w = (Ok r, w') ->
  (verdict (summary r) = py "Good Quality" <-> 80 <= quality_score (summary r))
  /\ (verdict (summary r) = py "Needs Improvement"
      <-> quality_score (summary r) < 80)
  /\ (verdict (summary r) = py "Good Quality"
      \/ verdict (summary r) = py "Needs Improvement").
Proof.
  intros (file & data & po & fo & _ & _ & _ & _ & -> & _)%analyze_code_Ok.
  unfold report_of. cbn [summary quality_score verdict].
  set (score := Z.max _ 40).
  destruct (Z.geb_spec score 80) as [Hge|Hlt].
  - split_and!; [split; [lia|done] | split; [discriminate|lia] | by left].
  - split_and!; [split; [discriminate|lia] | split; [lia|done] | by right].
Qed.

Lemma verdict_threshold_witness :
  analyze_code (env_with noisy_tool) sample_code empty_world
  = (Ok noisy_report, cleaned sample_file sample_code empty_world)
  /\ quality_score (summary noisy_report) < 80
  /\ verdict (summary noisy_report) = py "Needs Improvement".
Proof.
  split; [vm_compute; reflexivity|]. split; [reflexivity|].
  destruct (verdict_threshold (env_with noisy_tool) sample_code empty_world
              (cleaned sample_file sample_code empty_world) noisy_report)
    as (_ & Hbad & _); [vm_compute; reflexivity|].
  apply Hbad. reflexivity.
Defined.

(** C3: [total_issues] of a report is the number of colons in
    [details.pylint] plus the number in [details.flake8]: these two are
    the stripped outputs, and stripping removes no colon. *)
Theorem total_issues_counts_colons (E : Env) (code : str) (w w' : world)
    (r : Report) :
  analyze_code E code w = (Ok r, w') ->
  total_issues (summary r)
  = Str.count (pylint (details r)) colon + Str.count (flake8 (details r)) colon.
Proof.
  intros (file & data & po & fo & _ & _ & _ & _ & -> & _)%analyze_code_Ok.
  unfold report_of. cbn [summary details total_issues pylint flake8].
  by rewrite !count_colon_strip.
Qed.

Lemma total_issues_counts_colons_witness :
  analyze_code (env_with noisy_tool) sample_code empty_world
  = (Ok noisy_report, cleaned sample_file sample_code empty_world)
  /\ Str.count (pylint (details noisy_report)) colon
     + Str.count (flake8 (details noisy_report)) colon = 3.
Proof.
  split; [vm_compute; reflexivity|].
  rewrite <- (total_issues_counts_colons (env_with noisy_tool) sample_code
                empty_world (cleaned sample_file sample_code empty_world)
                noisy_report); [reflexivity | vm_compute; reflexivity].
Defined.

(** A request whose code is one lone surrogate, as the JSON escape
    [\ud800] is parsed: the code is not blank and a temporary name is
    free, yet the handler gives no response: [code.encode()] raises
    [UnicodeEncodeError], and the empty temporary file stays. *)
Lemma analyze_lone_surrogate :
  dict_lookup [(py "code", JStr [0xD800%N])] (py "code") = Some (JStr [0xD800%N])
  /\ Str.strip [0xD800%N] <> []
  /\ temp_name (env_with quiet_tool) empty_world = Some sample_file
  /\ (exists e,
         analyze (env_with quiet_tool) (JDict [(py "code", JStr [0xD800%N])])
           empty_world
         = (Raise e, {| fs := {[ sample_file := [] ]};
                        trace := [EvCreate sample_file] |})
         /\ exn_cls e = UnicodeEncodeError)
  /\ ~ (exists resp w',
          analyze (env_with quiet_tool) (JDict [(py "code", JStr [0xD800%N])])
            empty_world = (Ok resp, w')).
Proof.
  destruct (analyze (env_with quiet_tool)
              (JDict [(py "code", JStr [0xD800%N])]) empty_world)
    as [res w1] eqn:Hrun.
  vm_compute in Hrun. injection Hrun as <- <-.
  split_and!; [vm_compute; reflexivity | discriminate | vm_compute; reflexivity | |].
  - eexists. split; reflexivity.
  - intros (resp & w' & Hok). discriminate.
Qed.

(** C4, amended: a request whose JSON object has no "code", or whose code
    is a string that is empty after stripping, is answered 400 with
    [{"error": "No code provided"}] and the world is untouched (no
    temporary file, no tool run). A request whose code is a string that is
    not blank is handed to [analyze_code]: the handler answers 200 with
    the serialized report exactly when [analyze_code] returns one, and
    raises what [analyze_code] raises otherwise; it can answer only a code
    that holds no surrogate. *)
Theorem analyze_gate (E : Env) (d : list (str * json)) (w : world) :
  ((dict_lookup d (py "code") = None
    \/ exists s, dict_lookup d (py "code") = Some (JStr s) /\ Str.strip s = []) ->
   analyze E (JDict d) w = (Ok no_code_response, w))
  /\ (forall s,
        dict_lookup d (py "code") = Some (JStr s) ->
        Str.strip s <> [] ->
        analyze E (JDict d) w
        = match analyze_code E s w with
          | (Ok report, w') =>
              (Ok {| status := 200; body := report_json report |}, w')
          | (Raise e, w') => (Raise e, w')
          end
        /\ ((exists resp w', analyze E (JDict d) w = (Ok resp, w')) ->
            ~ Exists (fun c => is_surrogate c = true) s)).
Proof.
  split.
  - intros [Hnone|(s & Hsome & Hblank)]; unfold analyze, py_get, bind, ret.
    + rewrite Hnone. cbn. done.
    + rewrite Hsome. cbn. rewrite Hblank. done.
  - intros s Hsome Hcode.
    assert (Hstep : analyze E (JDict d) w
                    = match analyze_code E s w with
                      | (Ok report, w') =>
                          (Ok {| status := 200; body := report_json report |}, w')
                      | (Raise e, w') => (Raise e, w')
                      end).
    { unfold analyze, py_get, bind, ret. rewrite Hsome. cbn.
      rewrite bool_decide_eq_false_2 by done. done. }
    split; [exact Hstep|].
    intros (resp & w' & Hok). rewrite Hstep in Hok.
    destruct (analyze_code E s w) as [[r|e] w1] eqn:Hrun; [|done].
    apply analyze_code_Ok in Hrun as (file & data & _ & _ & _ & Henc & _).
    rewrite <- encode_None_iff, Henc. done.
Qed.

Lemma analyze_gate_witness :
  analyze (env_with noisy_tool) (JDict [(py "code", JStr (py "   "))]) empty_world
  = (Ok no_code_response, empty_world)
  /\ analyze (env_with noisy_tool) (JDict []) empty_world
     = (Ok no_code_response, empty_world)
  /\ analyze (env_with noisy_tool) (JDict [(py "code", JStr sample_code)])
       empty_world
     = (Ok {| status := 200; body := report_json noisy_report |},
        cleaned sample_file sample_code empty_world)
  /\ ~ Exists (fun c => is_surrogate c = true) sample_code.
Proof.
  destruct (analyze_gate (env_with noisy_tool)
              [(py "code", JStr sample_code)] empty_world) as [_ Hgo].
  destruct (Hgo sample_code) as [Hrelay Hclean];
    [vm_compute; reflexivity | discriminate |].
  assert (Hrun : analyze (env_with noisy_tool)
                   (JDict [(py "code", JStr sample_code)]) empty_world
                 = (Ok {| status := 200; body := report_json noisy_report |},
                    cleaned sample_file sample_code empty_world))
    by (rewrite Hrelay; vm_compute; reflexivity).
  split_and!.
  - apply (analyze_gate (env_with noisy_tool) [(py "code", JStr (py "   "))]
             empty_world).
    right. exists (py "   "). split; vm_compute; reflexivity.
  - apply (analyze_gate (env_with noisy_tool) [] empty_world).
    left. reflexivity.
  - exact Hrun.
  - apply Hclean. by eexists _, _.
Defined.

(** C5: when [subprocess.run] fails with an exception (the tool is not
    installed, say), [run_tool] returns [str(e)] as the output of that tool
    and raises nothing; [analyze_code] then counts the colons of the message
    and reports it under [details] like any other output. *)
Theorem run_tool_absorbs_failure (E : Env) :
  (forall command file_path w e,
      subprocess_run E command = Raised e ->
      is_Exception (exn_cls e) = true ->
      run_tool E command file_path w = (Ok (exn_str e), log (EvRun command) w))
  /\ (forall code w file data e1 e2,
        temp_name E w = Some file ->
        Str.encode code = Some data ->
        subprocess_run E (pylint_command file) = Raised e1 ->
        is_Exception (exn_cls e1) = true ->
        subprocess_run E (flake8_command file) = Raised e2 ->
        is_Exception (exn_cls e2) = true ->
        analyze_code E code w
        = (Ok (report_of (exn_str e1) (exn_str e2)), cleaned file data w)).
Proof.
  split.
  - intros command file_path w e Hrun Hexc.
    rewrite run_tool_eq, Hrun. cbn. by rewrite Hexc.
  - intros code w file data e1 e2 Hfile Henc Hrun1 Hexc1 Hrun2 Hexc2.
    apply analyze_code_Ok. exists file, data, (exn_str e1), (exn_str e2).
    rewrite Hrun1, Hrun2. cbn. rewrite Hexc1, Hexc2. done.
Qed.

Lemma run_tool_absorbs_failure_witness :
  run_tool (env_with missing_tool) (flake8_command sample_file) sample_file
    empty_world
  = (Ok (py "[Errno 2] No such file or directory: 'flake8'"),
     log (EvRun (flake8_command sample_file)) empty_world)
  /\ (exists r w',
         analyze_code (env_with missing_tool) sample_code empty_world = (Ok r, w')
         /\ total_issues (summary r) = 2
         /\ pylint (details r) = py "[Errno 2] No such file or directory: 'pylint'").
Proof.
  destruct (run_tool_absorbs_failure (env_with missing_tool)) as [Htool Hrep].
  split.
  - apply (Htool (flake8_command sample_file) sample_file empty_world
             {| exn_cls := FileNotFoundError;
                exn_str := py "[Errno 2] No such file or directory: 'flake8'" |});
      reflexivity.
  - eexists _, _. split.
    + apply (Hrep sample_code empty_world sample_file sample_code
               {| exn_cls := FileNotFoundError;
                  exn_str := py "[Errno 2] No such file or directory: 'pylint'" |}
               {| exn_cls := FileNotFoundError;
                  exn_str := py "[Errno 2] No such file or directory: 'flake8'" |});
        reflexivity.
    + split; reflexivity.
Defined.

(** C6: once the temporary file exists, a run of [analyze_code] that
    returns has unlinked it, after the two tool runs and as its last
    effect, and leaves the directory as it found it; a run that ends in an
    exception has not reached [os.unlink], and the file stays. *)
Theorem temp_file_deleted_or_leaked (E : Env) (code : str) (w : world)
    (file : str) :
  temp_name E w = Some file ->
  match analyze_code E code w with
  | (Ok _, w') =>
      fs w' !! file = None
      /\ fs w' = fs w
      /\ exists data,
           trace w' = trace w ++ [EvCreate file; EvWrite file data;
                                  EvRun (pylint_command file);
                                  EvRun (flake8_command file);
                                  EvUnlink file]
  | (Raise _, w') =>
      is_Some (fs w' !! file)
      /\ exists evs,
           trace w' = trace w ++ EvCreate file :: evs
           /\ EvUnlink file ∉ evs
  end.
Proof.
  intros Hfile. pose proof (temp_name_fresh E w file Hfile) as Hfresh.
  rewrite analyze_code_eq, Hfile.
  destruct (Str.encode code) as [data|]; cbn zeta.
  - destruct (tool_text (subprocess_run E (pylint_command file))) as [po|e1].
    + destruct (tool_text (subprocess_run E (flake8_command file))) as [fo|e2].
      * change ({| fs := _; trace := _ |}) with
          {| fs := fs (cleaned file data w);
             trace := ((((trace w ++ [EvCreate file]) ++ [EvWrite file data])
                        ++ [EvRun (pylint_command file)])
                       ++ [EvRun (flake8_command file)]) ++ [EvUnlink file] |}.
        cbn [fs trace]. rewrite cleaned_fs by done. split_and!; [done..|].
        exists data. by rewrite <- !app_assoc.
      * cbn. rewrite lookup_alter_eq, lookup_insert_eq. split; [by eexists|].
        exists [EvWrite file data; EvRun (pylint_command file);
                EvRun (flake8_command file)].
        split; [by rewrite <- !app_assoc | not_among].
    + cbn. rewrite lookup_alter_eq, lookup_insert_eq. split; [by eexists|].
      exists [EvWrite file data; EvRun (pylint_command file)].
      split; [by rewrite <- !app_assoc | not_among].
  - cbn. rewrite lookup_insert_eq. split; [by eexists|].
    exists []. split; [done | not_among].
Qed.

Lemma temp_file_deleted_or_leaked_witness :
  (temp_name (env_with noisy_tool) empty_world = Some sample_file
   /\ analyze_code (env_with noisy_tool) sample_code empty_world
      = (Ok noisy_report, cleaned sample_file sample_code empty_world)
   /\ fs (cleaned sample_file sample_code empty_world) !! sample_file = None
   /\ fs (cleaned sample_file sample_code empty_world) = fs empty_world
   /\ trace (cleaned sample_file sample_code empty_world)
      = [EvCreate sample_file; EvWrite sample_file sample_code;
         EvRun (pylint_command sample_file);
         EvRun (flake8_command sample_file);
         EvUnlink sample_file])
  /\ (temp_name (env_with interrupted_tool) empty_world = Some sample_file
      /\ exists e w',
           analyze_code (env_with interrupted_tool) sample_code empty_world
           = (Raise e, w')
           /\ exn_cls e = KeyboardInterrupt
           /\ is_Some (fs w' !! sample_file)).
Proof.
  split.
  - assert (Hrun : analyze_code (env_with noisy_tool) sample_code empty_world
                   = (Ok noisy_report,
                      cleaned sample_file sample_code empty_world))
      by (vm_compute; reflexivity).
    pose proof (temp_file_deleted_or_leaked (env_with noisy_tool) sample_code
                  empty_world sample_file) as H.
    rewrite Hrun in H. destruct H as (Hgone & Hsame & data & Htrace);
      [vm_compute; reflexivity|].
    split_and!; [vm_compute; reflexivity | exact Hrun | exact Hgone
                | exact Hsame | reflexivity].
  - split; [vm_compute; reflexivity|].
    pose proof (temp_file_deleted_or_leaked (env_with interrupted_tool)
                  sample_code empty_world sample_file) as H.
    destruct (analyze_code (env_with interrupted_tool) sample_code empty_world)
      as [[r|e] w'] eqn:Hrun.
    + exfalso. vm_compute in Hrun. discriminate.
    + exists e, w'. split; [reflexivity|]. split.
      * vm_compute in Hrun. injection Hrun as <- _. reflexivity.
      * apply H. vm_compute; reflexivity.
Defined.

(** C7: [GET /health] answers 200 with [{"status": "running"}] in every
    world, has no effect on the files or on the trace, and answers the same
    in any two worlds; the handler has no access to the environment. *)
Theorem health_running (w : world) :
  (exists w',
      health w
      = (Ok {| status := 200;
               body := JDict [(py "status", JStr (py "running"))] |}, w')
      /\ fs w' = fs w
      /\ trace w' = trace w)
  /\ (forall u, (health u).1 = (health w).1).
Proof.
  split.
  - exists w. unfold health, ret, jsonify. by split_and!.
  - intros u. unfold health, ret. done.
Qed.

(** C8: the output of a tool that ran is its captured standard output
    followed by its standard error, and [details] holds the two outputs
    stripped: what [strip] returns is the output without a whitespace
    prefix and a whitespace suffix, with nothing changed in between. *)
Theorem details_are_stripped_outputs (E : Env) :
  (forall command file_path w p,
      subprocess_run E command = Completed p ->
      run_tool E command file_path w
      = (Ok (stdout p ++ stderr p), log (EvRun command) w))
  /\ (forall code w w' r file p1 p2,
        analyze_code E code w = (Ok r, w') ->
        temp_name E w = Some file ->
        subprocess_run E (pylint_command file) = Completed p1 ->
        subprocess_run E (flake8_command file) = Completed p2 ->
        pylint (details r) = Str.strip (stdout p1 ++ stderr p1)
        /\ flake8 (details r) = Str.strip (stdout p2 ++ stderr p2))
  /\ (forall s, exists pre suf,
        s = pre ++ Str.strip s ++ suf
        /\ Forall (fun c => Str.isspace c = true) pre
        /\ Forall (fun c => Str.isspace c = true) suf
        /\ (forall c t, Str.strip s = c :: t -> Str.isspace c = false)
        /\ (forall t c, Str.strip s = t ++ [c] -> Str.isspace c = false)).
Proof.
  split_and!.
  - intros command file_path w p Hrun. by rewrite run_tool_eq, Hrun.
  - intros code w w' r file p1 p2 Hrun Hfile Hp1 Hp2.
    apply analyze_code_Ok in Hrun
      as (f & data & po & fo & Hf & _ & Hpo & Hfo & -> & _).
    assert (f = file) as -> by congruence.
    rewrite Hp1 in Hpo. rewrite Hp2 in Hfo. cbn in Hpo, Hfo.
    by injection Hpo as <-; injection Hfo as <-.
  - apply strip_spec.
Qed.

Lemma details_are_stripped_outputs_witness :
  analyze_code (env_with noisy_tool) sample_code empty_world
  = (Ok noisy_report, cleaned sample_file sample_code empty_world)
  /\ pylint (details noisy_report)
     = sample_file ++ py ":1:0: C0114 (missing-module-docstring)"
  /\ flake8 (details noisy_report) = [].
Proof.
  split; [vm_compute; reflexivity|].
  destruct (details_are_stripped_outputs (env_with noisy_tool))
    as (_ & Hdetails & _).
  destruct (Hdetails sample_code empty_world
              (cleaned sample_file sample_code empty_world) noisy_report
              sample_file
              {| stdout := sample_file
                           ++ py ":1:0: C0114 (missing-module-docstring) ";
                 stderr := [] |}
              {| stdout := []; stderr := [] |})
    as [Hp Hf]; [vm_compute; reflexivity ..|].
  rewrite Hp, Hf. split; vm_compute; reflexivity.
Defined.

(** C9: the [quality_score] of a report is one of 40, 50, 60, 70, 80, 90
    and 100, whatever the two tool outputs are. *)
Theorem quality_score_steps (E : Env) (code : str) (w w' : world) (r : Report) :
  analyze_code E code w = (Ok r, w') ->
  quality_score (summary r) ∈ [40; 50; 60; 70; 80; 90; 100]
  /\ quality_score (summary r) mod 10 = 0.
Proof.
  intros (file & data & po & fo & _ & _ & _ & _ & -> & _)%analyze_code_Ok.
  pose proof (report_of_issues_nonneg po fo) as Hnn.
  unfold report_of in *. cbn [summary quality_score total_issues] in *.
  set (issues := _ + _) in *.
  assert (Hcases : issues = 0 \/ issues = 1 \/ issues = 2 \/ issues = 3
                   \/ issues = 4 \/ issues = 5 \/ 6 <= issues) by lia.
  destruct Hcases as [->|[->|[->|[->|[->|[->|Hbig]]]]]];
    [split; [set_solver | done] ..|].
  rewrite Z.max_r by lia. split; [set_solver | done].
Qed.

Lemma quality_score_steps_witness :
  analyze_code (env_with noisy_tool) sample_code empty_world
  = (Ok noisy_report, cleaned sample_file sample_code empty_world)
  /\ quality_score (summary noisy_report) ∈ [40; 50; 60; 70; 80; 90; 100].
Proof.
  split; [vm_compute; reflexivity|].
  apply (quality_score_steps (env_with noisy_tool) sample_code empty_world
           (cleaned sample_file sample_code empty_world) noisy_report).
  vm_compute; reflexivity.
Defined.

(** C10: two runs of [analyze_code] (any code, any environment, any world)
    whose two [run_tool] calls give the same pair of strings return the
    same report, field by field. *)
Theorem report_determined_by_outputs (E1 E2 : Env) (code1 code2 : str)
    (w1 w1' w2 w2' u1 u2 : world) (file1 file2 : str) (r1 r2 : Report) :
  temp_name E1 w1 = Some file1 ->
  temp_name E2 w2 = Some file2 ->
  (run_tool E1 (pylint_command file1) file1 u1).1
  = (run_tool E2 (pylint_command file2) file2 u2).1 ->
  (run_tool E1 (flake8_command file1) file1 u1).1
  = (run_tool E2 (flake8_command file2) file2 u2).1 ->
  analyze_code E1 code1 w1 = (Ok r1, w1') ->
  analyze_code E2 code2 w2 = (Ok r2, w2') ->
  r1 = r2.
Proof.
  intros Hf1 Hf2 Hp Hf.
  intros (f1 & d1 & po1 & fo1 & Hf1' & _ & Hp1 & Hx1 & -> & _)%analyze_code_Ok.
  intros (f2 & d2 & po2 & fo2 & Hf2' & _ & Hp2 & Hx2 & -> & _)%analyze_code_Ok.
  assert (f1 = file1) as -> by congruence.
  assert (f2 = file2) as -> by congruence.
  rewrite !run_tool_eq in Hp, Hf. cbn [fst] in Hp, Hf.
  assert (po1 = po2) as -> by congruence.
  assert (fo1 = fo2) as -> by congruence.
  done.
Qed.

Lemma report_determined_by_outputs_witness :
  analyze_code (env_with quiet_tool) sample_code empty_world
  = (Ok (report_of [] []), cleaned sample_file sample_code empty_world)
  /\ analyze_code other_env (py "x = 1") empty_world
     = (Ok clean_report,
        cleaned (py "/var/tmp/tmpzzzz0000.py") (py "x = 1") empty_world)
  /\ report_of [] [] = clean_report.
Proof.
  assert (H1 : analyze_code (env_with quiet_tool) sample_code empty_world
               = (Ok (report_of [] []),
                  cleaned sample_file sample_code empty_world))
    by (vm_compute; reflexivity).
  assert (H2 : analyze_code other_env (py "x = 1") empty_world
               = (Ok clean_report,
                  cleaned (py "/var/tmp/tmpzzzz0000.py") (py "x = 1")
                    empty_world))
    by (vm_compute; reflexivity).
  split; [exact H1|]. split; [exact H2|].
  apply (report_determined_by_outputs (env_with quiet_tool) other_env
           sample_code (py "x = 1")
           empty_world (cleaned sample_file sample_code empty_world)
           empty_world
           (cleaned (py "/var/tmp/tmpzzzz0000.py") (py "x = 1") empty_world)
           empty_world empty_world sample_file (py "/var/tmp/tmpzzzz0000.py"));
    first [exact H1 | exact H2 | vm_compute; reflexivity].
Defined.

(** * Further properties of the two files *)

(** ** More on strings *)

Lemma lstrip_blank (s : str) :
  Forall (fun c => Str.isspace c = true) s -> Str.lstrip s = [].
Proof.
  induction 1 as [|c s Hc _ IH]; [done|]. cbn [Str.lstrip]. by rewrite Hc.
Qed.

(** [strip] returns the empty string exactly for the strings made of
    whitespace only. *)
Lemma strip_nil_iff (s : str) :
  Str.strip s = [] <-> Forall (fun c => Str.isspace c = true) s.
Proof.
  split.
  - intros Hs. destruct (strip_spec s) as (pre & suf & Heq & Hpre & Hsuf & _).
    rewrite Heq, Hs. apply Forall_app. split; [done|]. by apply Forall_app.
  - intros Hall. unfold Str.strip. by rewrite (lstrip_blank s Hall).
Qed.

Lemma occurrences_le_length (c : char) (s : str) :
  occurrences c s <= Z.of_nat (length s).
Proof.
  induction s as [|x s IH]; cbn [occurrences length]; [lia|].
  destruct (c =? x)%N; lia.
Qed.

Lemma occurrences_zero_iff (c : char) (s : str) :
  occurrences c s = 0 <-> c ∉ s.
Proof.
  induction s as [|x s IH]; cbn [occurrences].
  - split; [intros _; apply not_elem_of_nil | done].
  - rewrite not_elem_of_cons, <- IH.
    pose proof (occurrences_nonneg c s).
    destruct (N.eqb_spec c x); (split; [intros; split; lia | intros [? ?]; lia]).
Qed.

(** ** The handler, case by case *)

Lemma analyze_eq (E : Env) (request_json : json) (w : world) :
  analyze E request_json w =
  match request_json with
  | JDict d =>
      match dict_lookup d (py "code") with
      | None => (Ok no_code_response, w)
      | Some (JStr s) =>
          if bool_decide (Str.strip s = []) then (Ok no_code_response, w)
          else
            match analyze_code E s w with
            | (Ok report, w') => (Ok (jsonify (report_json report)), w')
            | (Raise e, w') => (Raise e, w')
            end
      | Some v => (Raise (no_attribute v "strip"), w)
      end
  | _ => (Raise (no_attribute request_json "get"), w)
  end.
Proof.
  unfold analyze, bind, py_get.
  destruct request_json as [| | | | |d]; try done.
  cbn [ret]. destruct (dict_lookup d (py "code")) as [[| | |s| |]|]; try done.
  cbn [py_strip ret as_str]. by destruct (bool_decide (Str.strip s = [])).
Qed.

(** X1: a JSON body that is not an object (a list, a string, a number,
    [null]) makes [analyze] raise [AttributeError] at [data.get]; nothing
    has been done by then: no temporary file, no tool run. *)
Theorem analyze_non_object_body (E : Env) (request_json : json) (w : world) :
  (forall d, request_json <> JDict d) ->
  exists e,
    analyze E request_json w = (Raise e, w)
    /\ exn_cls e = AttributeError.
Proof.
  intros Hbody. rewrite analyze_eq.
  destruct request_json as [| | | | |d]; try by eexists.
  by destruct (Hbody d).
Qed.

Lemma analyze_non_object_body_witness :
  exists e,
    analyze (env_with noisy_tool) (JList [JStr sample_code]) empty_world
    = (Raise e, empty_world)
    /\ exn_cls e = AttributeError.
Proof.
  apply (analyze_non_object_body (env_with noisy_tool) (JList [JStr sample_code])
           empty_world).
  discriminate.
Defined.

(** X2: a "code" that is present but is not a string (a number, [null], a
    list, an object) makes [analyze] raise [AttributeError] at
    [code.strip()], not answer 400; the world is untouched. *)
Theorem analyze_non_string_code (E : Env) (d : list (str * json)) (v : json)
    (w : world) :
  dict_lookup d (py "code") = Some v ->
  (forall s, v <> JStr s) ->
  exists e,
    analyze E (JDict d) w = (Raise e, w)
    /\ exn_cls e = AttributeError.
Proof.
  intros Hcode Hv. rewrite analyze_eq, Hcode.
  destruct v as [| | |s| |]; try by eexists.
  by destruct (Hv s).
Qed.

Lemma analyze_non_string_code_witness :
  exists e,
    analyze (env_with noisy_tool) (JDict [(py "code", JNull)]) empty_world
    = (Raise e, empty_world)
    /\ exn_cls e = AttributeError.
Proof.
  apply (analyze_non_string_code (env_with noisy_tool) [(py "code", JNull)]
           JNull empty_world); [vm_compute; reflexivity | discriminate].
Defined.

(** X3: for a "code" that is a string, [analyze] answers 400 exactly when
    every character of the code is whitespace (the empty string
    included). *)
Theorem analyze_400_iff_blank (E : Env) (d : list (str * json)) (s : str)
    (w : world) :
  dict_lookup d (py "code") = Some (JStr s) ->
  (exists resp w', analyze E (JDict d) w = (Ok resp, w') /\ status resp = 400)
  <-> Forall (fun c => Str.isspace c = true) s.
Proof.
  intros Hcode. rewrite analyze_eq, Hcode, <- strip_nil_iff.
  case_bool_decide as Hblank.
  - split; [done|]. intros _. by exists no_code_response, w.
  - split; [|done]. intros (resp & w' & Hrun & Hstatus).
    destruct (analyze_code E s w) as [[r|e] w1]; [|done].
    injection Hrun as <- _. done.
Qed.

Lemma analyze_400_iff_blank_witness :
  exists resp w',
    analyze (env_with noisy_tool)
      (JDict [(py "lang", JStr (py "python")); (py "code", JStr [9; 32; 0x3000]%N)])
      empty_world = (Ok resp, w')
    /\ status resp = 400.
Proof.
  apply (analyze_400_iff_blank (env_with noisy_tool)
           [(py "lang", JStr (py "python")); (py "code", JStr [9; 32; 0x3000]%N)]
           [9; 32; 0x3000]%N empty_world); [vm_compute; reflexivity|].
  repeat constructor.
Defined.

(** X4: whatever the body, when [analyze] answers, the status is 400 or
    200 and the files are as before the request: with 400 nothing at all
    was done, and with 200 the body is the report of a run of
    [analyze_code] that has removed its file. *)
Theorem analyze_answer_leaves_no_file (E : Env) (request_json : json)
    (w w' : world) (resp : response) :
  analyze E request_json w = (Ok resp, w') ->
  fs w' = fs w
  /\ ((resp = no_code_response /\ w' = w)
      \/ (exists d s r,
             request_json = JDict d
             /\ dict_lookup d (py "code") = Some (JStr s)
             /\ analyze_code E s w = (Ok r, w')
             /\ resp = {| status := 200; body := report_json r |})).
Proof.
  rewrite analyze_eq. intros Hrun.
  destruct request_json as [| | | | |d]; try done.
  destruct (dict_lookup d (py "code")) as [[| | |s| |]|] eqn:Hcode; try done.
  - case_bool_decide.
    + injection Hrun as <- <-. split; [done | by left].
    + destruct (analyze_code E s w) as [[r|e] w1] eqn:Hcall; [|done].
      injection Hrun as <- <-. split.
      * apply analyze_code_Ok in Hcall
          as (file & data & _ & _ & Hfile & _ & _ & _ & _ & ->).
        apply cleaned_fs. by apply (temp_name_fresh E).
      * right. by exists d, s, r.
  - injection Hrun as <- <-. split; [done | by left].
Qed.

Lemma analyze_answer_leaves_no_file_witness :
  analyze (env_with noisy_tool) (JDict [(py "code", JStr sample_code)])
    empty_world
  = (Ok {| status := 200; body := report_json noisy_report |},
     cleaned sample_file sample_code empty_world)
  /\ fs (cleaned sample_file sample_code empty_world) = ∅.
Proof.
  assert (Hrun : analyze (env_with noisy_tool)
                   (JDict [(py "code", JStr sample_code)]) empty_world
                 = (Ok {| status := 200; body := report_json noisy_report |},
                    cleaned sample_file sample_code empty_world))
    by (vm_compute; reflexivity).
  split; [exact Hrun|].
  apply (analyze_answer_leaves_no_file (env_with noisy_tool)
           (JDict [(py "code", JStr sample_code)]) empty_world
           (cleaned sample_file sample_code empty_world)
           {| status := 200; body := report_json noisy_report |} Hrun).
Defined.

(** ** More on [run_tool] and [analyze_code] *)

(** Only an exception that is not derived from [Exception] gets through
    [run_tool]. *)
Lemma tool_text_Raise (o : outcome) (e : exn) :
  tool_text o = Raise e -> o = Raised e /\ is_Exception (exn_cls e) = false.
Proof.
  destruct o as [p|e0]; [done|]. cbn.
  destruct (is_Exception (exn_cls e0)) eqn:Hcls; [done|].
  by intros [= <-].
Qed.

(** X7: given a free temporary name, [analyze_code] raises
    [UnicodeEncodeError] exactly when the code holds a surrogate; it has
    then created the file, left it empty and run no tool. *)
Theorem analyze_code_surrogate (E : Env) (code : str) (w : world) (file : str) :
  temp_name E w = Some file ->
  ((exists e w', analyze_code E code w = (Raise e, w')
                 /\ exn_cls e = UnicodeEncodeError)
   <-> Exists (fun c => is_surrogate c = true) code)
  /\ (Exists (fun c => is_surrogate c = true) code ->
      (analyze_code E code w).2
      = {| fs := <[file := []]> (fs w); trace := trace w ++ [EvCreate file] |}).
Proof.
  intros Hfile. rewrite <- encode_None_iff, analyze_code_eq, Hfile.
  destruct (Str.encode code) as [data|] eqn:Henc; cbn zeta.
  - split; [|done]. split; [|done]. intros (e & w' & Hrun & Hcls).
    destruct (tool_text (subprocess_run E (pylint_command file)))
      as [po|e1] eqn:H1.
    + destruct (tool_text (subprocess_run E (flake8_command file)))
        as [fo|e2] eqn:H2; [done|].
      injection Hrun as <- _. destruct (tool_text_Raise _ _ H2) as [_ Hno].
      by rewrite Hcls in Hno.
    + injection Hrun as <- _. destruct (tool_text_Raise _ _ H1) as [_ Hno].
      by rewrite Hcls in Hno.
  - split; [|done]. split; [done|]. intros _. by eexists _, _.
Qed.

Lemma analyze_code_surrogate_witness :
  temp_name (env_with noisy_tool) empty_world = Some sample_file
  /\ Exists (fun c => is_surrogate c = true) (py "x = '" ++ [0xDC00%N] ++ py "'")
  /\ (analyze_code (env_with noisy_tool) (py "x = '" ++ [0xDC00%N] ++ py "'")
        empty_world).2
     = {| fs := {[ sample_file := [] ]}; trace := [EvCreate sample_file] |}.
Proof.
  assert (Hsur : Exists (fun c => is_surrogate c = true)
                   (py "x = '" ++ [0xDC00%N] ++ py "'")).
  { apply Exists_exists. exists 0xDC00%N. split; [|reflexivity].
    apply elem_of_app. right. apply elem_of_app. left. apply list_elem_of_singleton.
    reflexivity. }
  split; [vm_compute; reflexivity|]. split; [exact Hsur|].
  destruct (analyze_code_surrogate (env_with noisy_tool)
              (py "x = '" ++ [0xDC00%N] ++ py "'") empty_world sample_file)
    as [_ Hworld]; [vm_compute; reflexivity|].
  rewrite (Hworld Hsur). vm_compute. reflexivity.
Defined.

(** Outside the temporary name, the files after [analyze_code] are the
    files before it. *)
Lemma analyze_code_fs (E : Env) (code : str) (w : world) :
  match temp_name E w with
  | None => (analyze_code E code w).2 = w
  | Some file =>
      forall path : list N,
        path <> file ->
        fs (analyze_code E code w).2 !! path = fs w !! path
  end.
Proof.
  rewrite analyze_code_eq.
  destruct (temp_name E w) as [file|]; [|done].
  intros path Hne.
  destruct (Str.encode code) as [data|]; cbn zeta;
    [|cbn; by rewrite lookup_insert_ne].
  destruct (tool_text (subprocess_run E (pylint_command file))) as [po|e1];
    [|cbn; by rewrite lookup_alter_ne, lookup_insert_ne].
  destruct (tool_text (subprocess_run E (flake8_command file))) as [fo|e2]; cbn.
  - by rewrite lookup_delete_ne, lookup_alter_ne, lookup_insert_ne.
  - by rewrite lookup_alter_ne, lookup_insert_ne.
Qed.

(** X8: [analyze_code] never changes or removes a file that was there
    before the call, whether it returns or raises; the only path that can
    be new afterwards is the temporary name it picked. *)
Theorem analyze_code_keeps_other_files (E : Env) (code : str) (w : world) :
  (forall path content,
      fs w !! path = Some content ->
      fs (analyze_code E code w).2 !! path = Some content)
  /\ (forall path,
        fs w !! path = None ->
        is_Some (fs (analyze_code E code w).2 !! path) ->
        temp_name E w = Some path).
Proof.
  pose proof (analyze_code_fs E code w) as Hfs.
  destruct (temp_name E w) as [file|] eqn:Hfile.
  - pose proof (temp_name_fresh E w file Hfile) as Hfresh. split.
    + intros path content Hpath. rewrite Hfs; [done | congruence].
    + intros path Hnone Hsome.
      destruct (decide (path = file)) as [->|Hne]; [done|].
      rewrite Hfs, Hnone in Hsome by done. by destruct Hsome.
  - rewrite Hfs. split; [done|]. intros path Hnone Hsome.
    rewrite Hnone in Hsome. by destruct Hsome.
Qed.

Lemma analyze_code_keeps_other_files_witness :
  fs crowded_world !! sample_file = Some (py "print(1)")
  /\ fs (analyze_code (env_with missing_tool) sample_code crowded_world).2
       !! sample_file = Some (py "print(1)")
  /\ temp_name (env_with missing_tool) crowded_world
     = Some (py "/tmp/tmpefgh5678.py").
Proof.
  split; [vm_compute; reflexivity|]. split; [|vm_compute; reflexivity].
  destruct (analyze_code_keeps_other_files (env_with missing_tool) sample_code
              crowded_world) as [Hkeep _].
  apply Hkeep. vm_compute; reflexivity.
Defined.

(** X9: the effects of [analyze_code] always come in the same order:
    create, write, pylint, flake8, unlink. Whatever happens, what a call
    adds to the trace is an initial part of that sequence, and the call
    returns a report exactly when the sequence is complete. *)
Theorem analyze_code_effects_in_order (E : Env) (code : str) (w : world) :
  exists evs,
    trace (analyze_code E code w).2 = trace w ++ evs
    /\ ((evs = [] /\ temp_name E w = None)
        \/ exists file data,
             temp_name E w = Some file
             /\ evs `prefix_of` full_run file data
             /\ evs <> [])
    /\ ((exists r, (analyze_code E code w).1 = Ok r)
        <-> exists file data, evs = full_run file data).
Proof.
  rewrite analyze_code_eq.
  destruct (temp_name E w) as [file|].
  - destruct (Str.encode code) as [data|]; cbn zeta.
    + destruct (tool_text (subprocess_run E (pylint_command file))) as [po|e1].
      * destruct (tool_text (subprocess_run E (flake8_command file))) as [fo|e2].
        -- exists (full_run file data). cbn [snd fst trace log written].
           split; [by rewrite <- !app_assoc|]. split.
           ++ right. exists file, data. by split_and!.
           ++ split; [by exists file, data | by eexists].
        -- exists [EvCreate file; EvWrite file data;
                   EvRun (pylint_command file); EvRun (flake8_command file)].
           cbn [snd fst trace log written].
           split; [by rewrite <- !app_assoc|]. split.
           ++ right. exists file, data. split_and!; [done | | done].
              by exists [EvUnlink file].
           ++ split; [by intros [? ?] | by intros (? & ? & ?)].
      * exists [EvCreate file; EvWrite file data; EvRun (pylint_command file)].
        cbn [snd fst trace log written].
        split; [by rewrite <- !app_assoc|]. split.
        -- right. exists file, data. split_and!; [done | | done].
           by exists [EvRun (flake8_command file); EvUnlink file].
        -- split; [by intros [? ?] | by intros (? & ? & ?)].
    + exists [EvCreate file]. cbn [snd fst trace]. split; [done|]. split.
      * right. exists file, []. split_and!; [done | | done].
        by exists [EvWrite file []; EvRun (pylint_command file);
                   EvRun (flake8_command file); EvUnlink file].
      * split; [by intros [? ?] | by intros (? & ? & ?)].
  - exists []. cbn [snd fst]. split; [by rewrite app_nil_r|]. split.
    + by left.
    + split; [by intros [? ?] | by intros (? & ? & ?)].
Qed.

(** ** More on the score *)

Lemma count_colon_occurrences (s : str) : Str.count s colon = occurrences 58 s.
Proof. change colon with [58%N]. apply count_single. Qed.

(** X11: the verdict and the ends of the scale, read off the number of
    colons: a report is "Good Quality" exactly up to two colons, its score
    is 100 exactly with none and 40 exactly from six on. *)
Theorem verdict_by_issue_count (E : Env) (code : str) (w w' : world)
    (r : Report) :
  analyze_code E code w = (Ok r, w') ->
  0 <= total_issues (summary r)
  /\ (verdict (summary r) = py "Good Quality" <-> total_issues (summary r) <= 2)
  /\ (quality_score (summary r) = 100 <-> total_issues (summary r) = 0)
  /\ (quality_score (summary r) = 40 <-> 6 <= total_issues (summary r)).
Proof.
  intros (file & data & po & fo & _ & _ & _ & _ & -> & _)%analyze_code_Ok.
  pose proof (report_of_issues_nonneg po fo) as Hnn.
  unfold report_of in *. cbn [summary quality_score total_issues verdict] in *.
  set (issues := _ + _) in *. split_and!; [done | | lia..].
  destruct (Z.geb_spec (Z.max (100 - issues * 10) 40) 80);
    (split; [try discriminate; lia | try done; lia]).
Qed.

Lemma verdict_by_issue_count_witness :
  analyze_code (env_with missing_tool) sample_code empty_world
  = (Ok (report_of (py "[Errno 2] No such file or directory: 'pylint'")
           (py "[Errno 2] No such file or directory: 'flake8'")),
     cleaned sample_file sample_code empty_world)
  /\ verdict (summary (report_of
                (py "[Errno 2] No such file or directory: 'pylint'")
                (py "[Errno 2] No such file or directory: 'flake8'")))
     = py "Good Quality".
Proof.
  assert (Hrun : analyze_code (env_with missing_tool) sample_code empty_world
                 = (Ok (report_of
                          (py "[Errno 2] No such file or directory: 'pylint'")
                          (py "[Errno 2] No such file or directory: 'flake8'")),
                    cleaned sample_file sample_code empty_world))
    by (vm_compute; reflexivity).
  split; [exact Hrun|].
  destruct (verdict_by_issue_count _ _ _ _ _ Hrun) as (_ & Hgood & _).
  apply Hgood. vm_compute. discriminate.
Defined.

(** X12: a report has the score 100 exactly when neither string under
    [details] holds a colon. *)
Theorem perfect_score_iff_no_colon (E : Env) (code : str) (w w' : world)
    (r : Report) :
  analyze_code E code w = (Ok r, w') ->
  quality_score (summary r) = 100
  <-> (forall c, c ∈ colon ->
                 (c ∉ pylint (details r)) /\ (c ∉ flake8 (details r))).
Proof.
  intros (file & data & po & fo & _ & _ & _ & _ & -> & _)%analyze_code_Ok.
  unfold report_of. cbn [summary details quality_score pylint flake8].
  rewrite !count_colon_occurrences.
  pose proof (occurrences_nonneg 58 po). pose proof (occurrences_nonneg 58 fo).
  rewrite <- (occurrences_strip 58 po), <- (occurrences_strip 58 fo) in * by done.
  split.
  - intros Hscore c ->%list_elem_of_singleton.
    rewrite <- !occurrences_zero_iff. change (N_of_ascii ":") with 58%N. lia.
  - intros Hnone. destruct (Hnone 58%N) as [Hp Hf]; [by apply list_elem_of_singleton|].
    apply occurrences_zero_iff in Hp, Hf. lia.
Qed.

Lemma perfect_score_iff_no_colon_witness :
  analyze_code (env_with quiet_tool) sample_code empty_world
  = (Ok clean_report, cleaned sample_file sample_code empty_world)
  /\ quality_score (summary clean_report) = 100.
Proof.
  assert (Hrun : analyze_code (env_with quiet_tool) sample_code empty_world
                 = (Ok clean_report, cleaned sample_file sample_code empty_world))
    by (vm_compute; reflexivity).
  split; [exact Hrun|].
  apply (perfect_score_iff_no_colon _ _ _ _ _ Hrun).
  intros c _. split; apply not_elem_of_nil.
Defined.

(** X13: more colons never give a better report: of two reports, the one
    with no more colons has a score at least as high, and is "Good
    Quality" whenever the other is. *)
Theorem score_antitone_in_issues (E1 E2 : Env) (code1 code2 : str)
    (w1 w1' w2 w2' : world) (r1 r2 : Report) :
  analyze_code E1 code1 w1 = (Ok r1, w1') ->
  analyze_code E2 code2 w2 = (Ok r2, w2') ->
  total_issues (summary r1) <= total_issues (summary r2) ->
  quality_score (summary r2) <= quality_score (summary r1)
  /\ (verdict (summary r2) = py "Good Quality" ->
      verdict (summary r1) = py "Good Quality").
Proof.
  intros (f1 & d1 & po1 & fo1 & _ & _ & _ & _ & -> & _)%analyze_code_Ok.
  intros (f2 & d2 & po2 & fo2 & _ & _ & _ & _ & -> & _)%analyze_code_Ok.
  unfold report_of. cbn [summary quality_score total_issues verdict].
  set (i1 := _ + _). set (i2 := Str.count po2 colon + _). intros Hle.
  split; [lia|].
  destruct (Z.geb_spec (Z.max (100 - i2 * 10) 40) 80); [|discriminate].
  destruct (Z.geb_spec (Z.max (100 - i1 * 10) 40) 80); [done | lia].
Qed.

Lemma score_antitone_in_issues_witness :
  analyze_code (env_with quiet_tool) sample_code empty_world
  = (Ok clean_report, cleaned sample_file sample_code empty_world)
  /\ analyze_code (env_with noisy_tool) sample_code empty_world
     = (Ok noisy_report, cleaned sample_file sample_code empty_world)
  /\ quality_score (summary noisy_report) <= quality_score (summary clean_report).
Proof.
  assert (H1 : analyze_code (env_with quiet_tool) sample_code empty_world
               = (Ok clean_report, cleaned sample_file sample_code empty_world))
    by (vm_compute; reflexivity).
  assert (H2 : analyze_code (env_with noisy_tool) sample_code empty_world
               = (Ok noisy_report, cleaned sample_file sample_code empty_world))
    by (vm_compute; reflexivity).
  split; [exact H1|]. split; [exact H2|].
  apply (score_antitone_in_issues _ _ _ _ _ _ _ _ _ _ H1 H2).
  vm_compute. discriminate.
Defined.

(** X14: [total_issues] is never more than the number of characters the
    report shows under [details]. *)
Theorem total_issues_bounded_by_details (E : Env) (code : str) (w w' : world)
    (r : Report) :
  analyze_code E code w = (Ok r, w') ->
  total_issues (summary r)
  <= Z.of_nat (length (pylint (details r)) + length (flake8 (details r))).
Proof.
  intros (file & data & po & fo & _ & _ & _ & _ & -> & _)%analyze_code_Ok.
  unfold report_of. cbn [summary details total_issues pylint flake8].
  rewrite <- (count_colon_strip po), <- (count_colon_strip fo).
  rewrite !count_colon_occurrences.
  pose proof (occurrences_le_length 58 (Str.strip po)).
  pose proof (occurrences_le_length 58 (Str.strip fo)). lia.
Qed.

Lemma total_issues_bounded_by_details_witness :
  analyze_code (env_with noisy_tool) sample_code empty_world
  = (Ok noisy_report, cleaned sample_file sample_code empty_world)
  /\ total_issues (summary noisy_report) <= 57.
Proof.
  assert (Hrun : analyze_code (env_with noisy_tool) sample_code empty_world
                 = (Ok noisy_report, cleaned sample_file sample_code empty_world))
    by (vm_compute; reflexivity).
  split; [exact Hrun|].
  etransitivity;
    [apply (total_issues_bounded_by_details _ _ _ _ _ Hrun) | vm_compute; discriminate].
Defined.

(** ** [summarize] of [demo/app.py] *)

(** X15: the demo score loses five points per colon of the linter output
    only: it is a multiple of 5 between 40 and 100, it is 100 exactly
    without colon and reaches 40 exactly from twelve colons on; both
    counts are non-negative. *)
Theorem demo_score_range (pylint_out flake8_out : str) :
  0 <= Demo.issues (Demo.summarize pylint_out flake8_out)
  /\ 0 <= Demo.style_issues (Demo.summarize pylint_out flake8_out)
  /\ 40 <= Demo.quality_score (Demo.summarize pylint_out flake8_out) <= 100
  /\ Demo.quality_score (Demo.summarize pylint_out flake8_out) mod 5 = 0
  /\ (Demo.quality_score (Demo.summarize pylint_out flake8_out) = 100
      <-> Demo.issues (Demo.summarize pylint_out flake8_out) = 0)
  /\ (Demo.quality_score (Demo.summarize pylint_out flake8_out) = 40
      <-> 12 <= Demo.issues (Demo.summarize pylint_out flake8_out)).
Proof.
  cbn [Demo.summarize Demo.issues Demo.style_issues Demo.quality_score].
  pose proof (count_colon_nonneg pylint_out) as Hp.
  pose proof (count_colon_nonneg flake8_out) as Hf.
  set (n := Str.count pylint_out colon) in *.
  split_and!; try lia.
  destruct (Z.max_spec (100 - n * 5) 40) as [[_ ->]|[_ ->]]; [done|].
  replace (100 - n * 5) with ((20 - n) * 5) by lia. apply Z.mod_mul. lia.
Qed.

(** X16: the demo verdict does not look at the score: it is "Needs
    Improvement" exactly when the linter printed anything at all, so
    "Good Quality" comes with a score of 100 only, while a linter output
    without colon gets 100 and "Needs Improvement" together; the output of
    the style checker changes neither the score nor the verdict. *)
Theorem demo_verdict_ignores_score (pylint_out flake8_out : str) :
  (Demo.verdict (Demo.summarize pylint_out flake8_out) = py "Needs Improvement"
   <-> pylint_out <> [])
  /\ (Demo.verdict (Demo.summarize pylint_out flake8_out) = py "Good Quality"
      <-> pylint_out = [])
  /\ (Demo.verdict (Demo.summarize pylint_out flake8_out) = py "Good Quality" ->
      Demo.quality_score (Demo.summarize pylint_out flake8_out) = 100)
  /\ (pylint_out <> [] ->
      (forall c, c ∈ colon -> c ∉ pylint_out) ->
      Demo.quality_score (Demo.summarize pylint_out flake8_out) = 100
      /\ Demo.verdict (Demo.summarize pylint_out flake8_out)
         = py "Needs Improvement")
  /\ (forall other,
        Demo.quality_score (Demo.summarize pylint_out other)
        = Demo.quality_score (Demo.summarize pylint_out flake8_out)
        /\ Demo.verdict (Demo.summarize pylint_out other)
           = Demo.verdict (Demo.summarize pylint_out flake8_out)).
Proof.
  cbn [Demo.summarize Demo.verdict Demo.quality_score].
  split_and!.
  - destruct pylint_out; cbn; by split.
  - destruct pylint_out; cbn; by split.
  - by destruct pylint_out.
  - intros Hne Hnone. split; [|by destruct pylint_out].
    rewrite count_colon_occurrences.
    assert (Hzero : occurrences 58 pylint_out = 0).
    { apply occurrences_zero_iff, Hnone. by apply list_elem_of_singleton. }
    by rewrite Hzero.
  - done.
Qed.

Lemma demo_verdict_ignores_score_witness :
  Demo.quality_score
    (Demo.summarize (py "Your code has been rated at 10.00/10") []) = 100
  /\ Demo.verdict (Demo.summarize (py "Your code has been rated at 10.00/10") [])
     = py "Needs Improvement".
Proof.
  destruct (demo_verdict_ignores_score
              (py "Your code has been rated at 10.00/10") [])
    as (_ & _ & _ & Hodd & _).
  apply Hodd; [discriminate|].
  intros c ->%list_elem_of_singleton. apply occurrences_zero_iff.
  vm_compute. reflexivity.
Defined.

(** X17: the two files on the same outputs: the backend counts what the
    demo calls [issues] and [style_issues] together, and the backend score
    of a report is never above the demo score of the strings under its
    [details]. *)
Theorem backend_score_le_demo_score (E : Env) (code : str) (w w' : world)
    (r : Report) :
  analyze_code E code w = (Ok r, w') ->
  total_issues (summary r)
  = Demo.issues (Demo.summarize (pylint (details r)) (flake8 (details r)))
    + Demo.style_issues (Demo.summarize (pylint (details r)) (flake8 (details r)))
  /\ quality_score (summary r)
     <= Demo.quality_score
          (Demo.summarize (pylint (details r)) (flake8 (details r))).
Proof.
  intros (file & data & po & fo & _ & _ & _ & _ & -> & _)%analyze_code_Ok.
  unfold report_of.
  cbn [summary details total_issues quality_score pylint flake8
       Demo.summarize Demo.issues Demo.style_issues Demo.quality_score].
  rewrite !count_colon_strip.
  pose proof (count_colon_nonneg po). pose proof (count_colon_nonneg fo). lia.
Qed.

Lemma backend_score_le_demo_score_witness :
  analyze_code (env_with noisy_tool) sample_code empty_world
  = (Ok noisy_report, cleaned sample_file sample_code empty_world)
  /\ quality_score (summary noisy_report) = 70
  /\ 70 <= Demo.quality_score
             (Demo.summarize (pylint (details noisy_report))
                (flake8 (details noisy_report))).
Proof.
  assert (Hrun : analyze_code (env_with noisy_tool) sample_code empty_world
                 = (Ok noisy_report, cleaned sample_file sample_code empty_world))
    by (vm_compute; reflexivity).
  split; [exact Hrun|]. split; [reflexivity|].
  destruct (backend_score_le_demo_score _ _ _ _ _ Hrun) as [_ Hle].
  exact Hle.
Defined.

(** ** What is written to the temporary file *)

Lemma lor_lt_256 (a b : N) : (a < 256 -> b < 256 -> N.lor a b < 256)%N.
Proof.
  intros Ha Hb.
  destruct (N.eq_dec a 0%N) as [->|Ha0]; [by rewrite N.lor_0_l|].
  destruct (N.eq_dec b 0%N) as [->|Hb0]; [by rewrite N.lor_0_r|].
  assert (Hab : N.lor a b <> 0%N) by (rewrite N.lor_eq_0_iff; tauto).
  change 256%N with (2 ^ 8)%N in *.
  apply N.log2_lt_pow2; [lia|]. rewrite N.log2_lor.
  apply N.log2_lt_pow2 in Ha, Hb; lia.
Qed.

Lemma shiftr_lt (c : N) (k bound : N) :
  (c < bound * 2 ^ k -> N.shiftr c k < bound)%N.
Proof.
  intros Hc. rewrite N.shiftr_div_pow2.
  apply N.Div0.div_lt_upper_bound. lia.
Qed.

Lemma land_63_lt (c : N) : (N.land c 0x3F < 64)%N.
Proof.
  change 0x3F%N with (N.ones 6). rewrite N.land_ones.
  apply N.mod_upper_bound. done.
Qed.

Lemma continuation_byte_lt (c : N) : (N.lor 0x80 (N.land c 0x3F) < 256)%N.
Proof. apply lor_lt_256; [done|]. pose proof (land_63_lt c). lia. Qed.

Lemma encode_char_bytes (c : char) (b : bytes) :
  (c < 0x110000)%N ->
  Str.encode_char c = Some b ->
  Forall (fun x => (x < 256)%N) b.
Proof.
  intros Hc. unfold Str.encode_char.
  destruct (N.ltb_spec c 0x80%N).
  { intros [= <-]. repeat constructor. lia. }
  destruct (N.ltb_spec c 0x800%N).
  { intros [= <-]. repeat constructor; [|apply continuation_byte_lt].
    apply lor_lt_256; [done|]. pose proof (shiftr_lt c 6 32). lia. }
  destruct ((0xD800 <=? c)%N && (c <=? 0xDFFF)%N); [done|].
  destruct (N.ltb_spec c 0x10000%N).
  { intros [= <-]. repeat constructor; [|apply continuation_byte_lt..].
    apply lor_lt_256; [done|]. pose proof (shiftr_lt c 12 16). lia. }
  intros [= <-]. repeat constructor; [|apply continuation_byte_lt..].
  apply lor_lt_256; [done|]. pose proof (shiftr_lt c 18 8). lia.
Qed.

Lemma encode_char_length (c : char) (b : bytes) :
  Str.encode_char c = Some b -> (1 <= length b <= 4)%nat.
Proof.
  unfold Str.encode_char.
  repeat match goal with
         | |- context [if ?t then _ else _] => destruct t
         end; try done; intros [= <-]; cbn; lia.
Qed.

Lemma encode_facts (s : str) (data : bytes) :
  Str.encode s = Some data ->
  (length s <= length data <= 4 * length s)%nat
  /\ (Forall (fun c => (c < 0x80)%N) s -> data = s)
  /\ (Forall (fun c => (c < 0x110000)%N) s ->
      Forall (fun b => (b < 256)%N) data).
Proof.
  revert data. induction s as [|c s IH]; intros data; cbn [Str.encode].
  - intros [= <-]. by split_and!.
  - destruct (Str.encode_char c) as [b|] eqn:Hc; [|done].
    destruct (Str.encode s) as [bs|]; [|done].
    intros [= <-]. destruct (IH bs eq_refl) as (Hlen & Hascii & Hbytes).
    pose proof (encode_char_length c b Hc). rewrite length_app. cbn [length].
    split_and!; [lia | lia | |].
    + intros [Hlow Hrest]%Forall_cons. rewrite (Hascii Hrest).
      unfold Str.encode_char in Hc.
      destruct (N.ltb_spec c 0x80%N); [|lia]. by injection Hc as <-.
    + intros [Hvalid Hrest]%Forall_cons. apply Forall_app.
      split; [by apply (encode_char_bytes c) | by apply Hbytes].
Qed.

(** X18: in a run that returns, what was written to the temporary file
    is the UTF-8 form of the code: at least one and at most four bytes per
    character, every byte below 256 when the characters are Unicode code
    points, and the characters themselves when the code is ASCII. *)
Theorem temp_file_holds_utf8 (E : Env) (code : str) (w w' : world) (r : Report) :
  analyze_code E code w = (Ok r, w') ->
  exists file data,
    trace w' = trace w ++ full_run file data
    /\ Str.encode code = Some data
    /\ (length code <= length data <= 4 * length code)%nat
    /\ (Forall (fun c => (c < 0x80)%N) code -> data = code)
    /\ (Forall (fun c => (c < 0x110000)%N) code ->
        Forall (fun b => (b < 256)%N) data).
Proof.
  intros (file & data & po & fo & _ & Henc & _ & _ & _ & ->)%analyze_code_Ok.
  exists file, data. split; [done|]. split; [done|]. by apply encode_facts.
Qed.

Lemma temp_file_holds_utf8_witness :
  analyze_code (env_with quiet_tool) (py "s = '" ++ [0x20AC%N] ++ py "'")
    empty_world
  = (Ok clean_report,
     cleaned sample_file (py "s = '" ++ [0xE2; 0x82; 0xAC]%N ++ py "'")
       empty_world)
  /\ exists file data,
       trace (cleaned sample_file (py "s = '" ++ [0xE2; 0x82; 0xAC]%N ++ py "'")
                empty_world)
       = trace empty_world ++ full_run file data
       /\ (length (py "s = '" ++ [0x20AC%N] ++ py "'") <= length data)%nat.
Proof.
  assert (Hrun : analyze_code (env_with quiet_tool)
                   (py "s = '" ++ [0x20AC%N] ++ py "'") empty_world
                 = (Ok clean_report,
                    cleaned sample_file
                      (py "s = '" ++ [0xE2; 0x82; 0xAC]%N ++ py "'") empty_world))
    by (vm_compute; reflexivity).
  split; [exact Hrun|].
  destruct (temp_file_holds_utf8 _ _ _ _ _ Hrun)
    as (file & data & Htrace & _ & [Hlen _] & _).
  by exists file, data.
Defined.

(** ** The strings under [details] *)

Lemma lstrip_fixed (s : str) :
  (forall c t, s = c :: t -> Str.isspace c = false) -> Str.lstrip s = s.
Proof.
  destruct s as [|c t]; [done|]. intros Hhd. cbn [Str.lstrip].
  by rewrite (Hhd c t eq_refl).
Qed.

(** A string without whitespace at either end is its own [strip]. *)
Lemma strip_fixed (s : str) :
  (forall c t, s = c :: t -> Str.isspace c = false) ->
  (forall t c, s = t ++ [c] -> Str.isspace c = false) ->
  Str.strip s = s.
Proof.
  intros Hhd Hlast. unfold Str.strip, Str.rstrip.
  rewrite (lstrip_fixed s Hhd), lstrip_fixed; [apply rev_involutive|].
  intros c t Hrev. apply (Hlast (rev t) c).
  by rewrite <- (rev_involutive s), Hrev.
Qed.

Lemma strip_idemp (s : str) : Str.strip (Str.strip s) = Str.strip s.
Proof.
  destruct (strip_spec s) as (_ & _ & _ & _ & _ & Hhd & Hlast).
  by apply strip_fixed.
Qed.

(** X19: the two strings under [details] are already trimmed: they
    neither start nor end with whitespace, and stripping them again gives
    them back unchanged. *)
Theorem details_already_trimmed (E : Env) (code : str) (w w' : world)
    (r : Report) :
  analyze_code E code w = (Ok r, w') ->
  Str.strip (pylint (details r)) = pylint (details r)
  /\ Str.strip (flake8 (details r)) = flake8 (details r)
  /\ (forall c t,
        pylint (details r) = c :: t \/ flake8 (details r) = c :: t ->
        Str.isspace c = false)
  /\ (forall t c,
        pylint (details r) = t ++ [c] \/ flake8 (details r) = t ++ [c] ->
        Str.isspace c = false).
Proof.
  intros (file & data & po & fo & _ & _ & _ & _ & -> & _)%analyze_code_Ok.
  unfold report_of. cbn [details pylint flake8].
  destruct (strip_spec po) as (_ & _ & _ & _ & _ & Hhd1 & Hlast1).
  destruct (strip_spec fo) as (_ & _ & _ & _ & _ & Hhd2 & Hlast2).
  split_and!; [apply strip_idemp | apply strip_idemp | |].
  - intros c t [H|H]; eauto.
  - intros t c [H|H]; eauto.
Qed.

Lemma details_already_trimmed_witness :
  analyze_code (env_with noisy_tool) sample_code empty_world
  = (Ok noisy_report, cleaned sample_file sample_code empty_world)
  /\ Str.strip (pylint (details noisy_report)) = pylint (details noisy_report).
Proof.
  assert (Hrun : analyze_code (env_with noisy_tool) sample_code empty_world
                 = (Ok noisy_report, cleaned sample_file sample_code empty_world))
    by (vm_compute; reflexivity).
  split; [exact Hrun|].
  destruct (details_already_trimmed _ _ _ _ _ Hrun) as (Hp & _). exact Hp.
Defined.
